(** * Wavelet filter registry: [get_wavelet_filter]

    A shallow embedding of
    [7_declipping/wavelet_impainting/wavelets/wavelets.py] and the
    properties of its lookup, its parameter check and its failure modes.

    Python values are modelled as the function uses them: the family name is
    a [string], the parameter an integer ([Z]), the tap literals are binary64
    floats (the kernel's primitive floats, so that equality of two taps is
    equality of their bits), and a raised exception is a value of [exn]
    returned in place of the result. *)

From Stdlib Require Import ZArith List String Ascii Bool Lia.
From Stdlib Require Import DecimalString.
From Stdlib Require Import PrimFloat SpecFloat FloatOps.
From Stdlib Require Import QArith Qabs.
Import ListNotations.

Set Warnings "-inexact-float".

Local Open Scope string_scope.
Local Open Scope Z_scope.

(** ** Exceptions and outcomes of a call *)

(** The two exception classes a call can end with. [TypeError] carries the
    message built by the [raise] statements; [UnboundLocalError] carries the
    name of the local variable that was read before any assignment (the text
    of that message is the interpreter's, not the program's). *)
Inductive exn : Type :=
| TypeError (msg : string)
| UnboundLocalError (var : string).

Inductive result (A : Type) : Type :=
| Ok (a : A)
| Raise (e : exn).

Arguments Ok {A} a.
Arguments Raise {A} e.

Definition bind {A B : Type} (r : result A) (k : A -> result B) : result B :=
  match r with
  | Ok a => k a
  | Raise e => Raise e
  end.

Notation "x <- r ;; k" := (bind r (fun x => k))
  (at level 61, r at next level, right associativity).

(** ** Python values that reach [np.array] *)

Module Py.

(** Elements of the list [[0] + f]: one [int] and the [float] taps. *)
Inductive value : Type :=
| Int (z : Z)
| Float (x : float).

(** [str] of an [int]: its decimal digits, with a minus sign when
    negative. *)
Definition str_int (z : Z) : string := NilZero.string_of_int (Z.to_int z).

Fixpoint join (sep : string) (l : list string) : string :=
  match l with
  | [] => ""
  | [s] => s
  | s :: rest => s ++ sep ++ join sep rest
  end.

(** [str] of a tuple of [int]s: [(4, 6, 8, 10, 20)], and [(2,)] for a
    tuple of one element. *)
Definition str_tuple (t : list Z) : string :=
  match t with
  | [z] => "(" ++ str_int z ++ ",)"
  | _ => "(" ++ join ", " (map str_int t) ++ ")"
  end.

(** [x in t] for an [int] and a tuple of [int]s. *)
Definition contains (t : list Z) (x : Z) : bool := existsb (Z.eqb x) t.

End Py.

(** ** NumPy arrays *)

Module Np.

(** A one-dimensional array: of dtype [int64] when every element of the
    list is an [int], of dtype [float64] as soon as one is a [float]. *)
Inductive ndarray : Type :=
| IntArray (l : list Z)
| FloatArray (l : list float).

(** Conversion of an [int] to binary64, rounding to nearest even. *)
Definition float_of_int (z : Z) : float :=
  SF2Prim (binary_normalize prec emax z 0 false).

Definition as_int (v : Py.value) : option Z :=
  match v with
  | Py.Int z => Some z
  | Py.Float _ => None
  end.

Definition as_float (v : Py.value) : float :=
  match v with
  | Py.Int z => float_of_int z
  | Py.Float x => x
  end.

Fixpoint all_ints (l : list Py.value) : option (list Z) :=
  match l with
  | [] => Some []
  | v :: rest =>
      match as_int v, all_ints rest with
      | Some z, Some zs => Some (z :: zs)
      | _, _ => None
      end
  end.

(** [np.array(l)] for a list of [float]s and of [int]s that fit [int64]:
    the empty list gives an empty [float64] array, a list of [int]s an
    [int64] array, and any [float] in the list promotes every element to
    [float64]. *)
Definition array (l : list Py.value) : ndarray :=
  match l with
  | [] => FloatArray []
  | _ :: _ =>
      match all_ints l with
      | Some zs => IntArray zs
      | None => FloatArray (map as_float l)
      end
  end.

(** [a[i]]: the element at index [i], for [0 <= i < len(a)]. *)
Definition item (a : ndarray) (i : nat) : option Py.value :=
  match a with
  | IntArray l => option_map Py.Int (nth_error l i)
  | FloatArray l => option_map Py.Float (nth_error l i)
  end.

Definition len (a : ndarray) : nat :=
  match a with
  | IntArray l => List.length l
  | FloatArray l => List.length l
  end.

End Np.

(** ** The function *)

(** The local variable [f] of the function body: unbound ([None]) until one
    of the [f = [...]] statements runs. *)
Definition local := option (list float).

(** [if cond: f = taps], as a transformer of the binding of [f]. *)
Definition assign_if (cond : bool) (taps : list float) (f : local) : local :=
  if cond then Some taps else f.

(** The f-string [f"Supported params for {name}: {supported_params}"]. *)
Definition unsupported_message (name : string) (supported_params : list Z)
  : string :=
  "Supported params for " ++ name ++ ": " ++ Py.str_tuple supported_params.

(** [if param not in supported_params: raise TypeError(f"...")]. *)
Definition check_param (name : string) (supported_params : list Z) (param : Z)
  : result unit :=
  if negb (Py.contains supported_params param) then
    Raise (TypeError (unsupported_message name supported_params))
  else Ok tt.

Definition daubechies_block (name : string) (param : Z) (f : local)
  : result local :=
  let supported_params := [4; 6; 8; 10; 20] in
  _ <- check_param name supported_params param ;;
  let f := assign_if (param =? 4)
    [0.482962913145; 0.836516303738; 0.224143868042; -0.129409522551]%float f in
  let f := assign_if (param =? 6)
    [0.332670552950; 0.806891509311; 0.459877502118; -0.135011020010;
     -0.085441273882; 0.035226291882]%float f in
  let f := assign_if (param =? 8)
    [0.230377813309; 0.714846570553;
     0.630880767930; -0.027983769417;
     -0.187034811719; 0.030841381836;
     0.032883011667; -0.010597401785]%float f in
  let f := assign_if (param =? 10)
    [0.160102397974; 0.603829269797; 0.724308528438;
     0.138428145901; -0.242294887066; -0.032244869585;
     0.077571493840; -0.006241490213; -0.012580751999; 0.003335725285]%float f in
  let f := assign_if (param =? 20)
    [0.026670057901; 0.188176800078; 0.527201188932;
     0.688459039454; 0.281172343661; -0.249846424327;
     -0.195946274377; 0.127369340336; 0.093057364604;
     -0.071394147166; -0.029457536822; 0.033212674059;
     0.003606553567; -0.010733175483; 0.001395351747;
     0.001992405295; -0.000685856695; -0.000116466855;
     0.000093588670; -0.000013264203]%float f in
  Ok f.

Definition coiflet_block (name : string) (param : Z) (f : local)
  : result local :=
  let supported_params := [2] in
  _ <- check_param name supported_params param ;;
  let f := assign_if (param =? 2)
    [0.016387336463; -0.041464936782; -0.067372554722;
     0.386110066823; 0.812723635450; 0.417005184424;
     -0.076488599078; -0.059434418646; 0.023680171947;
     0.005611434819; -0.001823208871; -0.000720549445]%float f in
  Ok f.

Definition symmlet_block (name : string) (param : Z) (f : local)
  : result local :=
  let supported_params := [4] in
  _ <- check_param name supported_params param ;;
  let f := assign_if (param =? 4)
    [-0.107148901418; -0.041910965125; 0.703739068656;
     1.136658243408; 0.421234534204; -0.140317624179;
     -0.017824701442; 0.045570345896]%float f in
  Ok f.

(** [return np.array([0] + f)]: reading [f] while it is unbound raises
    [UnboundLocalError]. *)
Definition return_array (f : local) : result Np.ndarray :=
  match f with
  | None => Raise (UnboundLocalError "f")
  | Some taps => Ok (Np.array (Py.Int 0 :: map Py.Float taps))
  end.

(** The three [if name == ...:] statements in sequence, none of them with an
    [else]; the result is the binding of [f] when the [return] is reached. *)
Definition run_family_blocks (name : string) (param : Z) : result local :=
  let f : local := None in
  f <- (if name =? "Daubechies" then daubechies_block name param f
        else Ok f)%string ;;
  f <- (if name =? "Coiflet" then coiflet_block name param f
        else Ok f)%string ;;
  f <- (if name =? "Symmlet" then symmlet_block name param f
        else Ok f)%string ;;
  Ok f.

Definition get_wavelet_filter (name : string) (param : Z)
  : result Np.ndarray :=
  f <- run_family_blocks name param ;;
  return_array f.

(** What a caller can measure of a call: the length of the returned array,
    when there is one. *)
Definition returned_len (name : string) (param : Z) : option nat :=
  match get_wavelet_filter name param with
  | Ok a => Some (Np.len a)
  | Raise _ => None
  end.

(** ** The function over the heap of objects *)

(** Lists and arrays are mutable objects that live in the interpreter's
    heap, and a caller may have changed any of them before a call. To speak
    of what a call reads and writes, the body is written once more with the
    heap passed through every statement: a list display, [+] on lists and
    [np.array] each read their operands from the heap and put a new object in
    it. Strings, integers, floats and tuples are immutable values and stay
    outside the heap. *)
Module Heap.

Inductive object : Type :=
| List (items : list Py.value)
| Array (a : Np.ndarray).

Definition addr := nat.

Definition heap := list object.

Definition lookup (h : heap) (l : addr) : option object := nth_error h l.

(** A statement run in a heap ends with a value or an exception and the
    heap afterwards; [None] stands for a step Python never takes (following
    a reference to no object, or to an object of another kind than the
    statement created). *)
Definition St (A : Type) : Type := heap -> option (result A * heap).

Definition ret {A : Type} (a : A) : St A := fun h => Some (Ok a, h).

Definition raise {A : Type} (e : exn) : St A := fun h => Some (Raise e, h).

Definition lift {A : Type} (r : result A) : St A := fun h => Some (r, h).

Definition bind {A B : Type} (m : St A) (k : A -> St B) : St B :=
  fun h =>
    match m h with
    | Some (Ok a, h') => k a h'
    | Some (Raise e, h') => Some (Raise e, h')
    | None => None
    end.

(** A new object, at an address not in use. *)
Definition new (o : object) : St addr :=
  fun h => Some (Ok (List.length h), (h ++ [o])%list).

Definition read_list (l : addr) : St (list Py.value) :=
  fun h =>
    match lookup h l with
    | Some (List items) => Some (Ok items, h)
    | _ => None
    end.

(** [h'] is [h] with more objects after it: nothing of [h] was changed. *)
Definition extends (h h' : heap) : Prop := exists t, h' = (h ++ t)%list.

(** [[e1, ..., en]]: a list display builds a new list. *)
Definition list_display (items : list Py.value) : St addr :=
  new (List items).

(** [l1 + l2] on two lists: a new list, the operands unchanged. *)
Definition list_add (l1 l2 : addr) : St addr :=
  bind (read_list l1) (fun a =>
  bind (read_list l2) (fun b =>
  new (List (a ++ b)%list))).

(** [np.array(l)]: a new array with the elements of the list. *)
Definition np_array (l : addr) : St addr :=
  bind (read_list l) (fun items => new (Array (Np.array items))).

End Heap.

Notation "x <~ m ;; k" := (Heap.bind m (fun x => k))
  (at level 61, m at next level, right associativity).

Module Stateful.

(** The local variable [f]: unbound, or a reference to a list. *)
Definition local := option Heap.addr.

(** [if cond: f = [t1, ..., tn]]. *)
Definition assign_if (cond : bool) (taps : list float) (f : local)
  : Heap.St local :=
  if cond then
    l <~ Heap.list_display (map Py.Float taps) ;; Heap.ret (Some l)
  else Heap.ret f.

Definition daubechies_block (name : string) (param : Z) (f : local)
  : Heap.St local :=
  let supported_params := [4; 6; 8; 10; 20] in
  _ <~ Heap.lift (check_param name supported_params param) ;;
  f <~ assign_if (param =? 4)
    [0.482962913145; 0.836516303738; 0.224143868042; -0.129409522551]%float f ;;
  f <~ assign_if (param =? 6)
    [0.332670552950; 0.806891509311; 0.459877502118; -0.135011020010;
     -0.085441273882; 0.035226291882]%float f ;;
  f <~ assign_if (param =? 8)
    [0.230377813309; 0.714846570553;
     0.630880767930; -0.027983769417;
     -0.187034811719; 0.030841381836;
     0.032883011667; -0.010597401785]%float f ;;
  f <~ assign_if (param =? 10)
    [0.160102397974; 0.603829269797; 0.724308528438;
     0.138428145901; -0.242294887066; -0.032244869585;
     0.077571493840; -0.006241490213; -0.012580751999; 0.003335725285]%float f ;;
  f <~ assign_if (param =? 20)
    [0.026670057901; 0.188176800078; 0.527201188932;
     0.688459039454; 0.281172343661; -0.249846424327;
     -0.195946274377; 0.127369340336; 0.093057364604;
     -0.071394147166; -0.029457536822; 0.033212674059;
     0.003606553567; -0.010733175483; 0.001395351747;
     0.001992405295; -0.000685856695; -0.000116466855;
     0.000093588670; -0.000013264203]%float f ;;
  Heap.ret f.

Definition coiflet_block (name : string) (param : Z) (f : local)
  : Heap.St local :=
  let supported_params := [2] in
  _ <~ Heap.lift (check_param name supported_params param) ;;
  f <~ assign_if (param =? 2)
    [0.016387336463; -0.041464936782; -0.067372554722;
     0.386110066823; 0.812723635450; 0.417005184424;
     -0.076488599078; -0.059434418646; 0.023680171947;
     0.005611434819; -0.001823208871; -0.000720549445]%float f ;;
  Heap.ret f.

Definition symmlet_block (name : string) (param : Z) (f : local)
  : Heap.St local :=
  let supported_params := [4] in
  _ <~ Heap.lift (check_param name supported_params param) ;;
  f <~ assign_if (param =? 4)
    [-0.107148901418; -0.041910965125; 0.703739068656;
     1.136658243408; 0.421234534204; -0.140317624179;
     -0.017824701442; 0.045570345896]%float f ;;
  Heap.ret f.

(** [return np.array([0] + f)]: the display [[0]] is built first, then [f]
    is read (and found unbound, or not), then the two lists are added and
    the sum is handed to [np.array]. *)
Definition return_array (f : local) : Heap.St Heap.addr :=
  z <~ Heap.list_display [Py.Int 0] ;;
  match f with
  | None => Heap.raise (UnboundLocalError "f")
  | Some lf => s <~ Heap.list_add z lf ;; Heap.np_array s
  end.

Definition run_family_blocks (name : string) (param : Z) : Heap.St local :=
  let f : local := None in
  f <~ (if name =? "Daubechies" then daubechies_block name param f
        else Heap.ret f)%string ;;
  f <~ (if name =? "Coiflet" then coiflet_block name param f
        else Heap.ret f)%string ;;
  f <~ (if name =? "Symmlet" then symmlet_block name param f
        else Heap.ret f)%string ;;
  Heap.ret f.

Definition get_wavelet_filter (name : string) (param : Z)
  : Heap.St Heap.addr :=
  f <~ run_family_blocks name param ;;
  return_array f.

(** What the caller holds when the call is over: the exception, or the
    contents of the array behind the reference it was handed. *)
Definition observe (r : option (result Heap.addr * Heap.heap))
  : option (result Np.ndarray) :=
  match r with
  | Some (Ok l, h) =>
      match Heap.lookup h l with
      | Some (Heap.Array a) => Some (Ok a)
      | _ => None
      end
  | Some (Raise e, _) => Some (Raise e)
  | None => None
  end.

(** The binding of [f] in the heap-passing body stands for the binding
    [loc] in the function: both unbound, or a reference to a list of the
    same floats. *)
Definition points_to (h : Heap.heap) (f : local) (loc : option (list float))
  : Prop :=
  match f, loc with
  | None, None => True
  | Some l, Some taps =>
      Heap.lookup h l = Some (Heap.List (map Py.Float taps))
  | _, _ => False
  end.

(** A run of statements from a heap that extends [h0] ends as its
    counterpart [p] without the heap does, in a heap that still extends
    [h0]. *)
Definition simulates (h0 : Heap.heap)
           (r : option (result local * Heap.heap))
           (p : result (option (list float))) : Prop :=
  match p with
  | Ok loc =>
      exists f h', r = Some (Ok f, h') /\ Heap.extends h0 h'
                   /\ points_to h' f loc
  | Raise e => exists h', r = Some (Raise e, h') /\ Heap.extends h0 h'
  end.

End Stateful.

(** ** The specification's tables *)

(** These definitions follow the words of the specification (its sections 3
    and 4.1), not the code; the theorems below compare the code with them. *)
Module Spec.

Definition families : list string := ["Daubechies"; "Coiflet"; "Symmlet"].

(** Section 3: "Daubechies takes one of {4, 6, 8, 10, 20}; Coiflet takes
    {2}; Symmlet takes {4}". *)
Definition legal_params (family : string) : option (list Z) :=
  if (family =? "Daubechies")%string then Some [4; 6; 8; 10; 20]
  else if (family =? "Coiflet")%string then Some [2]
  else if (family =? "Symmlet")%string then Some [4]
  else None.

Record row : Type := Row {
  family : string;
  parameter : Z;
  tap_count : nat;
  taps : list float
}.

(** Section 4.1: supported combinations and their coefficients. *)
Definition table : list row := [
  Row "Daubechies" 4 4
    [0.482962913145; 0.836516303738; 0.224143868042; -0.129409522551]%float;
  Row "Daubechies" 6 6
    [0.332670552950; 0.806891509311; 0.459877502118; -0.135011020010;
     -0.085441273882; 0.035226291882]%float;
  Row "Daubechies" 8 8
    [0.230377813309; 0.714846570553; 0.630880767930; -0.027983769417;
     -0.187034811719; 0.030841381836; 0.032883011667;
     -0.010597401785]%float;
  Row "Daubechies" 10 10
    [0.160102397974; 0.603829269797; 0.724308528438; 0.138428145901;
     -0.242294887066; -0.032244869585; 0.077571493840; -0.006241490213;
     -0.012580751999; 0.003335725285]%float;
  Row "Daubechies" 20 20
    [0.026670057901; 0.188176800078; 0.527201188932; 0.688459039454;
     0.281172343661; -0.249846424327; -0.195946274377; 0.127369340336;
     0.093057364604; -0.071394147166; -0.029457536822; 0.033212674059;
     0.003606553567; -0.010733175483; 0.001395351747; 0.001992405295;
     -0.000685856695; -0.000116466855; 0.000093588670;
     -0.000013264203]%float;
  Row "Coiflet" 2 12
    [0.016387336463; -0.041464936782; -0.067372554722; 0.386110066823;
     0.812723635450; 0.417005184424; -0.076488599078; -0.059434418646;
     0.023680171947; 0.005611434819; -0.001823208871;
     -0.000720549445]%float;
  Row "Symmlet" 4 8
    [-0.107148901418; -0.041910965125; 0.703739068656; 1.136658243408;
     0.421234534204; -0.140317624179; -0.017824701442;
     0.045570345896]%float
].

(** "Differing only by letter case or surrounding whitespace": the two
    strings agree once stripped of surrounding whitespace and put in lower
    case. *)
Definition is_space (c : ascii) : bool :=
  let n := nat_of_ascii c in
  ((n =? 32) || ((9 <=? n) && (n <=? 13)))%nat.

Definition lower_ascii (c : ascii) : ascii :=
  let n := nat_of_ascii c in
  if ((65 <=? n) && (n <=? 90))%nat then ascii_of_nat (n + 32) else c.

Fixpoint lower (s : string) : string :=
  match s with
  | EmptyString => EmptyString
  | String c rest => String (lower_ascii c) (lower rest)
  end.

Fixpoint lstrip (s : string) : string :=
  match s with
  | EmptyString => EmptyString
  | String c rest => if is_space c then lstrip rest else s
  end.

Fixpoint rstrip (s : string) : string :=
  match s with
  | EmptyString => EmptyString
  | String c rest =>
      match rstrip rest with
      | EmptyString => if is_space c then EmptyString else String c EmptyString
      | rest' => String c rest'
      end
  end.

Definition strip (s : string) : string := rstrip (lstrip s).

Definition same_up_to_case_and_space (a b : string) : Prop :=
  lower (strip a) = lower (strip b).

(** "The message names ...": the text occurs in the message. *)
Definition mentions (msg text : string) : bool :=
  match index 0 text msg with
  | Some _ => true
  | None => false
  end.

End Spec.


(** ** The registry as a table *)

(** The same function written as a search of the seven rows by family and
    parameter, to compare with the chain of [if] statements. *)
Module Lookup.

Definition matches (name : string) (param : Z) (r : Spec.row) : bool :=
  (name =? Spec.family r)%string && (param =? Spec.parameter r).

Definition find_row (name : string) (param : Z) : option Spec.row :=
  find (matches name param) Spec.table.

Definition outcome (name : string) (param : Z) : result Np.ndarray :=
  match find_row name param with
  | Some r => Ok (Np.FloatArray (0%float :: Spec.taps r))
  | None =>
      match Spec.legal_params name with
      | Some ps => Raise (TypeError (unsupported_message name ps))
      | None => Raise (UnboundLocalError "f")
      end
  end.

End Lookup.

(** ** The exact values of the coefficients *)

(** A binary64 number is a rational; the filter conditions below are
    checked on these rationals, without rounding. *)
Module Exact.

Definition finite (x : float) : bool :=
  match Prim2SF x with
  | S754_zero _ | S754_finite _ _ _ => true
  | S754_infinity _ | S754_nan => false
  end.

(** The rational a finite float denotes: [(-1)^s * m * 2^e]. *)
Definition value (x : float) : Q :=
  match Prim2SF x with
  | S754_finite s m e =>
      ((if s then inject_Z (Z.neg m) else inject_Z (Z.pos m))
       * Qpower (inject_Z 2) e)%Q
  | _ => 0%Q
  end.

Definition values (a : Np.ndarray) : list Q :=
  match a with
  | Np.IntArray l => map inject_Z l
  | Np.FloatArray l => map value l
  end.

Definition all_finite (a : Np.ndarray) : bool :=
  match a with
  | Np.IntArray _ => true
  | Np.FloatArray l => forallb finite l
  end.

Fixpoint sum (l : list Q) : Q :=
  match l with
  | [] => 0%Q
  | q :: rest => (q + sum rest)%Q
  end.

(** [u[0]*v[0] + u[1]*v[1] + ...], over the common length. *)
Fixpoint dot (u v : list Q) : Q :=
  match u, v with
  | x :: u', y :: v' => (x * y + dot u' v')%Q
  | _, _ => 0%Q
  end.

(** Sum of the squares of the coefficients. *)
Definition energy (l : list Q) : Q := dot l l.

(** Correlation of the filter with itself shifted by [2 * m] places. *)
Definition double_shift (m : nat) (l : list Q) : Q := dot l (skipn (2 * m) l).

(** [l[0] - l[1] + l[2] - ...]. *)
Fixpoint alternating (l : list Q) : Q :=
  match l with
  | [] => 0%Q
  | q :: rest => (q - alternating rest)%Q
  end.

(** The tolerance of the checks: the literals have twelve decimals. *)
Definition eps : Q := (1 # 100000000000)%Q.

Definition within (tol x target : Q) : bool :=
  Qle_bool (Qabs (x - target)) tol.

End Exact.

(** ** Auxiliary facts *)

Lemma contains_In (t : list Z) (x : Z) : Py.contains t x = true <-> In x t.
Proof.
  unfold Py.contains. induction t as [| y t IH]; simpl.
  - split; [discriminate | tauto].
  - rewrite orb_true_iff, IH, Z.eqb_eq. intuition congruence.
Qed.

Lemma contains_not_In (t : list Z) (x : Z) :
  ~ In x t -> Py.contains t x = false.
Proof.
  intros H. destruct (Py.contains t x) eqn:E; [| reflexivity].
  apply contains_In in E. contradiction.
Qed.

Lemma legal_params_inv (name : string) (ps : list Z) :
  Spec.legal_params name = Some ps ->
  (name = "Daubechies" /\ ps = [4; 6; 8; 10; 20]) \/
  (name = "Coiflet" /\ ps = [2]) \/
  (name = "Symmlet" /\ ps = [4]).
Proof.
  unfold Spec.legal_params.
  destruct (String.eqb_spec name "Daubechies") as [-> | _];
    [intros [= <-]; auto |].
  destruct (String.eqb_spec name "Coiflet") as [-> | _];
    [intros [= <-]; auto |].
  destruct (String.eqb_spec name "Symmlet") as [-> | _];
    [intros [= <-]; auto | discriminate].
Qed.

Lemma legal_params_none (name : string) :
  Spec.legal_params name = None <-> ~ In name Spec.families.
Proof.
  unfold Spec.legal_params, Spec.families; simpl.
  destruct (String.eqb_spec name "Daubechies") as [-> | n1];
    [split; [discriminate | intros H; exfalso; apply H; auto] |].
  destruct (String.eqb_spec name "Coiflet") as [-> | n2];
    [split; [discriminate | intros H; exfalso; apply H; auto] |].
  destruct (String.eqb_spec name "Symmlet") as [-> | n3];
    [split; [discriminate | intros H; exfalso; apply H; auto] |].
  split; [| reflexivity].
  intros _ [E | [E | [E | []]]]; congruence.
Qed.

(** A name that is none of the three literals runs none of the [if] bodies:
    [f] is still unbound at the [return]. *)
Lemma unknown_family_blocks (name : string) (param : Z) :
  ~ In name Spec.families -> run_family_blocks name param = Ok None.
Proof.
  intros H. unfold run_family_blocks.
  destruct (String.eqb_spec name "Daubechies") as [-> | _];
    [exfalso; apply H; simpl; auto |].
  destruct (String.eqb_spec name "Coiflet") as [-> | _];
    [exfalso; apply H; simpl; auto |].
  destruct (String.eqb_spec name "Symmlet") as [-> | _];
    [exfalso; apply H; simpl; auto |].
  reflexivity.
Qed.

Lemma unknown_family_unbound (name : string) (param : Z) :
  ~ In name Spec.families ->
  get_wavelet_filter name param = Raise (UnboundLocalError "f").
Proof.
  intros H. unfold get_wavelet_filter.
  rewrite (unknown_family_blocks name param H). reflexivity.
Qed.

(** A recognized family with a parameter outside its tuple stops at the
    [raise] of its block. *)
Lemma illegal_param_raises (name : string) (ps : list Z) (param : Z) :
  Spec.legal_params name = Some ps ->
  Py.contains ps param = false ->
  get_wavelet_filter name param
  = Raise (TypeError (unsupported_message name ps)).
Proof.
  intros Hn Hp.
  destruct (legal_params_inv name ps Hn) as [[-> ->] | [[-> ->] | [-> ->]]];
    unfold get_wavelet_filter, run_family_blocks; simpl String.eqb; cbv iota.
  - unfold daubechies_block, check_param. rewrite Hp. reflexivity.
  - unfold bind at 3. unfold coiflet_block, check_param.
    rewrite Hp. reflexivity.
  - unfold bind at 4. unfold bind at 3. unfold symmlet_block, check_param.
    rewrite Hp. reflexivity.
Qed.

(** A recognized family with a parameter of its tuple returns a [float64]
    array that starts with [0.0]. *)
Lemma legal_param_returns (name : string) (ps : list Z) (param : Z) :
  Spec.legal_params name = Some ps ->
  In param ps ->
  exists taps : list float,
    get_wavelet_filter name param = Ok (Np.FloatArray (0%float :: taps)).
Proof.
  intros Hn Hp.
  destruct (legal_params_inv name ps Hn) as [[-> ->] | [[-> ->] | [-> ->]]];
    simpl in Hp;
    repeat (destruct Hp as [<- | Hp]; [eexists; vm_compute; reflexivity |]);
    contradiction.
Qed.

Lemma not_haar : ~ In "Haar" Spec.families.
Proof. simpl. intros [H | [H | [H | []]]]; discriminate H. Qed.

(** The table of section 4.1 is consistent with itself and with the legal
    parameters of section 3. *)
Lemma table_tap_counts :
  Forall (fun r => Spec.tap_count r = List.length (Spec.taps r)) Spec.table.
Proof. repeat constructor. Qed.

Lemma table_rows_legal :
  Forall (fun r => exists ps, Spec.legal_params (Spec.family r) = Some ps
                              /\ In (Spec.parameter r) ps) Spec.table.
Proof.
  repeat (constructor; [eexists; split; [reflexivity | simpl; tauto] |]).
  constructor.
Qed.

(** ** The heap-passing body against the function *)

Lemma extends_refl (h : Heap.heap) : Heap.extends h h.
Proof. exists []. symmetry. apply app_nil_r. Qed.

Lemma extends_trans (h1 h2 h3 : Heap.heap) :
  Heap.extends h1 h2 -> Heap.extends h2 h3 -> Heap.extends h1 h3.
Proof.
  intros [t1 ->] [t2 ->]. exists (t1 ++ t2)%list. symmetry. apply app_assoc.
Qed.

Lemma extends_new (h0 h : Heap.heap) (o : Heap.object) :
  Heap.extends h0 h -> Heap.extends h0 (h ++ [o])%list.
Proof. intros H. apply (extends_trans h0 h); [exact H | exists [o]; reflexivity]. Qed.

Lemma extends_length (h h' : Heap.heap) :
  Heap.extends h h' -> (List.length h <= List.length h')%nat.
Proof. intros [t ->]. rewrite length_app. lia. Qed.

Lemma lookup_extends (h h' : Heap.heap) (l : Heap.addr) (o : Heap.object) :
  Heap.extends h h' -> Heap.lookup h l = Some o -> Heap.lookup h' l = Some o.
Proof.
  intros [t ->] H. unfold Heap.lookup in *.
  rewrite nth_error_app1; [exact H |].
  apply nth_error_Some. congruence.
Qed.

Lemma lookup_new (h : Heap.heap) (o : Heap.object) :
  Heap.lookup (h ++ [o])%list (List.length h) = Some o.
Proof.
  unfold Heap.lookup. rewrite nth_error_app2 by apply Nat.le_refl.
  rewrite Nat.sub_diag. reflexivity.
Qed.

Lemma lookup_beyond (h : Heap.heap) (l : Heap.addr) :
  (List.length h <= l)%nat -> Heap.lookup h l = None.
Proof. intros H. apply nth_error_None. exact H. Qed.

Lemma bind_ok {A B : Type} (m : Heap.St A) (k : A -> Heap.St B)
      (h h' : Heap.heap) (a : A) :
  m h = Some (Ok a, h') -> Heap.bind m k h = k a h'.
Proof. intros E. unfold Heap.bind. rewrite E. reflexivity. Qed.

Lemma bind_raise {A B : Type} (m : Heap.St A) (k : A -> Heap.St B)
      (h h' : Heap.heap) (e : exn) :
  m h = Some (Raise e, h') -> Heap.bind m k h = Some (Raise e, h').
Proof. intros E. unfold Heap.bind. rewrite E. reflexivity. Qed.

Lemma bind_lift {A B : Type} (r : result A) (k : A -> Heap.St B)
      (h : Heap.heap) :
  Heap.bind (Heap.lift r) k h
  = match r with
    | Ok a => k a h
    | Raise e => Some (Raise e, h)
    end.
Proof. destruct r; reflexivity. Qed.

Lemma assign_if_sim (h0 h : Heap.heap) (cond : bool) (taps : list float)
      (f : Stateful.local) (loc : option (list float)) :
  Heap.extends h0 h ->
  Stateful.points_to h f loc ->
  exists f' h',
    Stateful.assign_if cond taps f h = Some (Ok f', h')
    /\ Heap.extends h0 h'
    /\ Stateful.points_to h' f' (assign_if cond taps loc).
Proof.
  intros X P. destruct cond; simpl.
  - eexists. eexists. split; [reflexivity |]. split.
    + apply extends_new, X.
    + simpl. apply lookup_new.
  - exists f, h. auto.
Qed.

(** One [if param == k: f = [...]] statement of a block, on both sides. *)
Ltac sim_step :=
  match goal with
  | X : Heap.extends ?h0 ?h, P : Stateful.points_to ?h ?f ?loc
    |- context [Heap.bind (Stateful.assign_if ?c ?t ?f) ?k ?h] =>
      let f1 := fresh "f" in
      let h1 := fresh "h" in
      let E := fresh "E" in
      let X1 := fresh "X" in
      let P1 := fresh "P" in
      destruct (assign_if_sim h0 h c t f loc X P) as (f1 & h1 & E & X1 & P1);
      rewrite (bind_ok (Stateful.assign_if c t f) k h h1 f1 E);
      clear E X P; cbv beta
  end.

Ltac sim_block :=
  intros X P;
  match goal with
  | |- Stateful.simulates _ (?st _ _ _ _) (?pure _ _ _) => unfold st, pure
  end;
  cbv zeta; rewrite bind_lift; unfold bind;
  match goal with
  | |- context [check_param ?n ?ps ?p] =>
      destruct (check_param n ps p) as [[] | ?]
  end;
  cbv beta iota;
  [ repeat sim_step; unfold Stateful.simulates, Heap.ret; eauto
  | unfold Stateful.simulates; eauto ].

Lemma daubechies_sim (h0 h : Heap.heap) (name : string) (param : Z)
      (f : Stateful.local) (loc : option (list float)) :
  Heap.extends h0 h ->
  Stateful.points_to h f loc ->
  Stateful.simulates h0 (Stateful.daubechies_block name param f h)
                     (daubechies_block name param loc).
Proof. sim_block. Qed.

Lemma coiflet_sim (h0 h : Heap.heap) (name : string) (param : Z)
      (f : Stateful.local) (loc : option (list float)) :
  Heap.extends h0 h ->
  Stateful.points_to h f loc ->
  Stateful.simulates h0 (Stateful.coiflet_block name param f h)
                     (coiflet_block name param loc).
Proof. sim_block. Qed.

Lemma symmlet_sim (h0 h : Heap.heap) (name : string) (param : Z)
      (f : Stateful.local) (loc : option (list float)) :
  Heap.extends h0 h ->
  Stateful.points_to h f loc ->
  Stateful.simulates h0 (Stateful.symmlet_block name param f h)
                     (symmlet_block name param loc).
Proof. sim_block. Qed.

Lemma sim_bind (h0 h : Heap.heap) (m : Heap.St Stateful.local)
      (k : Stateful.local -> Heap.St Stateful.local)
      (p : result (option (list float)))
      (kp : option (list float) -> result (option (list float))) :
  Stateful.simulates h0 (m h) p ->
  (forall f' h' loc',
      Heap.extends h0 h' -> Stateful.points_to h' f' loc' ->
      Stateful.simulates h0 (k f' h') (kp loc')) ->
  Stateful.simulates h0 (Heap.bind m k h) (bind p kp).
Proof.
  intros Hm Hk. destruct p as [loc | e]; simpl in Hm.
  - destruct Hm as (f' & h' & E & X & P).
    rewrite (bind_ok m k h h' f' E). simpl. apply Hk; assumption.
  - destruct Hm as (h' & E & X).
    rewrite (bind_raise m k h h' e E). simpl. exists h'. auto.
Qed.

Lemma ret_sim (h0 h : Heap.heap) (f : Stateful.local)
      (loc : option (list float)) :
  Heap.extends h0 h -> Stateful.points_to h f loc ->
  Stateful.simulates h0 (Heap.ret f h) (Ok loc).
Proof. intros X P. exists f, h. auto. Qed.

Lemma run_family_blocks_sim (h : Heap.heap) (name : string) (param : Z) :
  Stateful.simulates h (Stateful.run_family_blocks name param h)
                     (run_family_blocks name param).
Proof.
  unfold Stateful.run_family_blocks, run_family_blocks. cbv zeta.
  apply sim_bind.
  { destruct (name =? "Daubechies")%string;
      [apply daubechies_sim | apply ret_sim];
      first [apply extends_refl | exact I]. }
  intros f1 h1 loc1 X1 P1. cbv beta. apply sim_bind.
  { destruct (name =? "Coiflet")%string;
      [apply coiflet_sim | apply ret_sim]; assumption. }
  intros f2 h2 loc2 X2 P2. cbv beta. apply sim_bind.
  { destruct (name =? "Symmlet")%string;
      [apply symmlet_sim | apply ret_sim]; assumption. }
  intros f3 h3 loc3 X3 P3. cbv beta. apply ret_sim; assumption.
Qed.

Lemma read_list_at (h : Heap.heap) (l : Heap.addr) (items : list Py.value) :
  Heap.lookup h l = Some (Heap.List items) ->
  Heap.read_list l h = Some (Ok items, h).
Proof. intros E. unfold Heap.read_list. rewrite E. reflexivity. Qed.

(** The [return] statement when [f] is bound: three new objects, the last
    one the array, built from [0] and the items of the list [f] refers
    to. *)
Lemma return_array_bound (h : Heap.heap) (lf : Heap.addr)
      (items : list Py.value) :
  Heap.lookup h lf = Some (Heap.List items) ->
  exists l h',
    Stateful.return_array (Some lf) h = Some (Ok l, h')
    /\ Heap.extends h h'
    /\ Heap.lookup h' l = Some (Heap.Array (Np.array (Py.Int 0 :: items)))
    /\ (List.length h <= l)%nat.
Proof.
  intros Hf.
  set (h1 := (h ++ [Heap.List [Py.Int 0]])%list).
  set (h2 := (h1 ++ [Heap.List (Py.Int 0 :: items)])%list).
  set (a := Heap.Array (Np.array (Py.Int 0 :: items))).
  assert (X1 : Heap.extends h h1) by (apply extends_new, extends_refl).
  assert (X2 : Heap.extends h h2) by (apply extends_new, X1).
  exists (List.length h2), (h2 ++ [a])%list.
  split; [| split; [apply extends_new, X2 | split;
                     [apply lookup_new | apply extends_length, X2]]].
  unfold Stateful.return_array, Heap.list_display.
  rewrite (bind_ok (Heap.new _) _ h h1 (List.length h) eq_refl).
  unfold Heap.list_add.
  rewrite (bind_ok (Heap.bind _ _) _ h1 h2 (List.length h1)).
  - unfold Heap.np_array.
    rewrite (bind_ok (Heap.read_list _) _ h2 h2 (Py.Int 0 :: items)
               (read_list_at h2 _ _ (lookup_new h1 _))).
    reflexivity.
  - rewrite (bind_ok (Heap.read_list _) _ h1 h1 [Py.Int 0]
               (read_list_at h1 _ _ (lookup_new h _))).
    rewrite (bind_ok (Heap.read_list _) _ h1 h1 items
               (read_list_at h1 _ _ (lookup_extends h h1 lf _ X1 Hf))).
    reflexivity.
Qed.

(** The heap-passing body ends as the function says, in a heap that only
    has new objects after the old ones; a returned reference is to a new
    array. *)
Lemma run_get_wavelet_filter (h : Heap.heap) (name : string) (param : Z) :
  match get_wavelet_filter name param with
  | Ok a =>
      exists l h',
        Stateful.get_wavelet_filter name param h = Some (Ok l, h')
        /\ Heap.extends h h'
        /\ Heap.lookup h' l = Some (Heap.Array a)
        /\ Heap.lookup h l = None
  | Raise e =>
      exists h',
        Stateful.get_wavelet_filter name param h = Some (Raise e, h')
        /\ Heap.extends h h'
  end.
Proof.
  unfold get_wavelet_filter, Stateful.get_wavelet_filter.
  pose proof (run_family_blocks_sim h name param) as S.
  destruct (run_family_blocks name param) as [loc | e]; simpl in S.
  - destruct S as (f & h1 & E & X & P).
    rewrite (bind_ok _ _ h h1 f E). simpl bind.
    destruct f as [lf |], loc as [taps |]; simpl in P; try contradiction.
    + destruct (return_array_bound h1 lf _ P) as (l & h' & R & X' & L & B).
      simpl return_array. exists l, h'. repeat split.
      * exact R.
      * apply (extends_trans h h1 h'); assumption.
      * exact L.
      * apply lookup_beyond.
        apply Nat.le_trans with (List.length h1);
          [apply extends_length, X | exact B].
    + simpl return_array.
      exists (h1 ++ [Heap.List [Py.Int 0]])%list. split; [reflexivity |].
      apply extends_new, X.
  - destruct S as (h1 & E & X).
    rewrite (bind_raise _ _ h h1 e E). simpl. exists h1. auto.
Qed.

(** The observation does depend on the heap: a reference to an object that
    was there before the call shows whatever the heap holds at it. *)
Lemma observe_reads_heap :
  Stateful.observe (Some (Ok 0%nat, [Heap.Array (Np.IntArray [1])]))
  <> Stateful.observe (Some (Ok 0%nat, [Heap.Array (Np.IntArray [2])])).
Proof. simpl. discriminate. Qed.

Lemma observe_run (h : Heap.heap) (name : string) (param : Z) :
  Stateful.observe (Stateful.get_wavelet_filter name param h)
  = Some (get_wavelet_filter name param).
Proof.
  pose proof (run_get_wavelet_filter h name param) as R.
  destruct (get_wavelet_filter name param) as [a | e].
  - destruct R as (l & h' & E & _ & L & _). rewrite E. simpl. rewrite L.
    reflexivity.
  - destruct R as (h' & E & _). rewrite E. reflexivity.
Qed.

(** ** The claims *)

(** C1. For each of the seven (family, parameter) pairs of the table of
    section 4.1, [get_wavelet_filter] returns the [float64] array made of
    [0.0] followed by exactly the listed taps, in the listed order and with
    the listed signs and values. *)
Theorem get_wavelet_filter_table :
  Forall (fun r =>
            get_wavelet_filter (Spec.family r) (Spec.parameter r)
            = Ok (Np.FloatArray (0%float :: Spec.taps r)))
         Spec.table.
Proof.
  unfold Spec.table.
  repeat (constructor; [vm_compute; reflexivity |]).
  constructor.
Qed.

(** C2. The claim asks for an explicit Unrecognized Family error on a name
    such as ["Haar"]. The code has no branch for it: the call falls through
    the three [if] statements and fails at the [return] with
    [UnboundLocalError] on the local [f], not with an error about the
    family. *)
Theorem haar_falls_through :
  run_family_blocks "Haar" 4 = Ok None
  /\ get_wavelet_filter "Haar" 4 = Raise (UnboundLocalError "f").
Proof. split; reflexivity. Qed.

(** C3. For a recognized family and an integer parameter outside that
    family's supported set, the call fails with the Unsupported Parameter
    error (a [TypeError]) whose message names the family and lists the
    family's whole tuple of legal parameters; no value is returned. *)
Theorem unsupported_parameter_fails (name : string) (ps : list Z) (param : Z) :
  Spec.legal_params name = Some ps ->
  ~ In param ps ->
  exists msg : string,
    get_wavelet_filter name param = Raise (TypeError msg)
    /\ Spec.mentions msg name = true
    /\ Spec.mentions msg (Py.str_tuple ps) = true.
Proof.
  intros Hn Hp. exists (unsupported_message name ps). split.
  - apply illegal_param_raises; [exact Hn | apply contains_not_In, Hp].
  - destruct (legal_params_inv name ps Hn) as [[-> ->] | [[-> ->] | [-> ->]]];
      split; reflexivity.
Qed.

Lemma unsupported_parameter_fails_witness :
  Spec.legal_params "Daubechies" = Some [4; 6; 8; 10; 20]
  /\ ~ In 5 [4; 6; 8; 10; 20]
  /\ exists msg : string,
      get_wavelet_filter "Daubechies" 5 = Raise (TypeError msg)
      /\ Spec.mentions msg "Daubechies" = true
      /\ Spec.mentions msg "(4, 6, 8, 10, 20)" = true.
Proof.
  assert (H5 : ~ In 5 [4; 6; 8; 10; 20]) by (simpl; lia).
  split; [reflexivity | split; [exact H5 |]].
  exact (unsupported_parameter_fails "Daubechies" [4; 6; 8; 10; 20] 5
           eq_refl H5).
Defined.

(** C4. For each supported pair the returned array has one element more
    than the pair's tap count: 5, 7, 9, 11 and 21 for Daubechies 4, 6, 8, 10
    and 20, 13 for Coiflet 2 and 9 for Symmlet 4. *)
Theorem returned_length_table :
  Forall (fun r =>
            returned_len (Spec.family r) (Spec.parameter r)
            = Some (Spec.tap_count r + 1)%nat)
         Spec.table
  /\ map (fun r => returned_len (Spec.family r) (Spec.parameter r)) Spec.table
     = map Some [5; 7; 9; 11; 21; 13; 9]%nat.
Proof.
  split.
  - unfold Spec.table.
    repeat (constructor; [vm_compute; reflexivity |]).
    constructor.
  - vm_compute. reflexivity.
Qed.

(** C5. For every supported pair, the first element of the returned array
    is the float [0.0] (positive zero, not the integer [0] that the code
    writes in the list). *)
Theorem first_element_zero (name : string) (ps : list Z) (param : Z) :
  Spec.legal_params name = Some ps ->
  In param ps ->
  exists a : Np.ndarray,
    get_wavelet_filter name param = Ok a
    /\ Np.item a 0 = Some (Py.Float 0%float).
Proof.
  intros Hn Hp.
  destruct (legal_param_returns name ps param Hn Hp) as [taps E].
  exists (Np.FloatArray (0%float :: taps)). split; [exact E | reflexivity].
Qed.

Lemma first_element_zero_witness :
  Spec.legal_params "Symmlet" = Some [4]
  /\ In 4 [4]
  /\ exists a : Np.ndarray,
      get_wavelet_filter "Symmlet" 4 = Ok a
      /\ Np.item a 0 = Some (Py.Float 0%float).
Proof.
  split; [reflexivity | split; [simpl; auto |]].
  apply (first_element_zero "Symmlet" [4] 4); [reflexivity | simpl; auto].
Defined.

(** C6. Two calls with the same arguments end the same way whatever the
    heap holds when each is made (objects left by earlier calls, changed by
    the caller or not): the body reads no object but those it has just
    built, so the caller gets the same exception, or arrays with the same
    contents, element for element and bit for bit. *)
Theorem get_wavelet_filter_deterministic
        (h1 h2 : Heap.heap) (name : string) (param : Z) :
  exists o : result Np.ndarray,
    Stateful.observe (Stateful.get_wavelet_filter name param h1) = Some o
    /\ Stateful.observe (Stateful.get_wavelet_filter name param h2) = Some o.
Proof.
  exists (get_wavelet_filter name param).
  split; apply observe_run.
Qed.

(** C7. Every call completes, in one of three ways fixed by its arguments:
    it returns an array (recognized family, legal parameter), it raises the
    [TypeError] of the parameter check (recognized family, other parameter),
    or it raises [UnboundLocalError] (any other name). *)
Theorem every_call_completes (name : string) (param : Z) :
  (exists ps taps,
      Spec.legal_params name = Some ps /\ In param ps
      /\ get_wavelet_filter name param = Ok (Np.FloatArray (0%float :: taps)))
  \/ (exists ps,
         Spec.legal_params name = Some ps /\ ~ In param ps
         /\ get_wavelet_filter name param
            = Raise (TypeError (unsupported_message name ps)))
  \/ (Spec.legal_params name = None
      /\ get_wavelet_filter name param = Raise (UnboundLocalError "f")).
Proof.
  destruct (Spec.legal_params name) as [ps |] eqn:Hn.
  - destruct (Py.contains ps param) eqn:Hp.
    + left. apply contains_In in Hp.
      destruct (legal_param_returns name ps param Hn Hp) as [taps E].
      exists ps, taps. auto.
    + right; left. exists ps. repeat split.
      * intros Hin. apply contains_In in Hin. congruence.
      * apply illegal_param_raises; assumption.
  - right; right. split; [reflexivity |].
    apply unknown_family_unbound, legal_params_none, Hn.
Qed.

(** C8. A name that is none of the three family literals never gets the
    Unsupported Parameter error, whatever the parameter: the parameter
    checks sit inside the [if name == ...] bodies, which it does not
    enter. *)
Theorem unknown_family_no_type_error
        (name : string) (param : Z) (msg : string) :
  ~ In name Spec.families ->
  get_wavelet_filter name param <> Raise (TypeError msg).
Proof.
  intros H. rewrite (unknown_family_unbound name param H). discriminate.
Qed.

Lemma unknown_family_no_type_error_witness :
  ~ In "Haar" Spec.families
  /\ get_wavelet_filter "Haar" 4
     <> Raise (TypeError "Supported params for Haar: (4,)").
Proof.
  split; [exact not_haar |].
  exact (unknown_family_no_type_error
           "Haar" 4 "Supported params for Haar: (4,)" not_haar).
Defined.

(** C9. A name that differs from a family literal only by letter case or by
    surrounding whitespace is not that family: none of the three [if]
    bodies runs, so no coefficient list is bound to [f], and the call ends
    with [UnboundLocalError]. *)
Theorem family_match_exact (name fam : string) (param : Z) :
  In fam Spec.families ->
  name <> fam ->
  Spec.same_up_to_case_and_space name fam ->
  run_family_blocks name param = Ok None
  /\ get_wavelet_filter name param = Raise (UnboundLocalError "f").
Proof.
  intros Hfam Hne Hsame.
  assert (Hout : ~ In name Spec.families).
  { unfold Spec.same_up_to_case_and_space in Hsame.
    intros Hin. simpl in Hfam, Hin.
    destruct Hfam as [<- | [<- | [<- | []]]];
      destruct Hin as [<- | [<- | [<- | []]]];
      solve [ apply Hne; reflexivity | vm_compute in Hsame; discriminate Hsame ]. }
  split.
  - apply unknown_family_blocks, Hout.
  - apply unknown_family_unbound, Hout.
Qed.

Lemma family_match_exact_witness :
  In "Daubechies" Spec.families
  /\ "  daubechies " <> "Daubechies"
  /\ Spec.same_up_to_case_and_space "  daubechies " "Daubechies"
  /\ run_family_blocks "  daubechies " 4 = Ok None
  /\ get_wavelet_filter "  daubechies " 4 = Raise (UnboundLocalError "f").
Proof.
  assert (Hin : In "Daubechies" Spec.families) by (simpl; auto).
  assert (Hne : "  daubechies " <> "Daubechies") by discriminate.
  assert (Hs : Spec.same_up_to_case_and_space "  daubechies " "Daubechies")
    by reflexivity.
  split; [exact Hin | split; [exact Hne | split; [exact Hs |]]].
  exact (family_match_exact "  daubechies " "Daubechies" 4 Hin Hne Hs).
Defined.

(** C10. When the family is recognized, the only exception a call can end
    with is the [TypeError] of the parameter check, with the message
    [Supported params for {name}: {supported_params}], and it is raised
    exactly for the parameters outside the family's tuple. *)
Theorem unsupported_parameter_type_error
        (name : string) (ps : list Z) (param : Z) (e : exn) :
  Spec.legal_params name = Some ps ->
  get_wavelet_filter name param = Raise e ->
  e = TypeError ("Supported params for " ++ name ++ ": " ++ Py.str_tuple ps)
  /\ ~ In param ps.
Proof.
  intros Hn He.
  destruct (Py.contains ps param) eqn:Hp.
  - apply contains_In in Hp.
    destruct (legal_param_returns name ps param Hn Hp) as [taps E].
    congruence.
  - rewrite (illegal_param_raises name ps param Hn Hp) in He.
    injection He as <-. split; [reflexivity |].
    intros Hin. apply contains_In in Hin. congruence.
Qed.

Lemma unsupported_parameter_type_error_witness :
  Spec.legal_params "Coiflet" = Some [2]
  /\ get_wavelet_filter "Coiflet" 4
     = Raise (TypeError "Supported params for Coiflet: (2,)")
  /\ TypeError "Supported params for Coiflet: (2,)"
     = TypeError "Supported params for Coiflet: (2,)"
  /\ ~ In 4 [2].
Proof.
  split; [reflexivity | split; [reflexivity |]].
  exact (unsupported_parameter_type_error
           "Coiflet" [2] 4 (TypeError "Supported params for Coiflet: (2,)")
           eq_refl eq_refl).
Defined.


(** ** The function and the table search *)

Lemma find_row_unknown (name : string) (param : Z) :
  ~ In name Spec.families -> Lookup.find_row name param = None.
Proof.
  intros H. simpl in H.
  assert (H1 : (name =? "Daubechies")%string = false)
    by (apply String.eqb_neq; intros E; apply H; auto).
  assert (H2 : (name =? "Coiflet")%string = false)
    by (apply String.eqb_neq; intros E; apply H; auto).
  assert (H3 : (name =? "Symmlet")%string = false)
    by (apply String.eqb_neq; intros E; apply H; auto).
  unfold Lookup.find_row, Spec.table, find, Lookup.matches.
  cbn [Spec.family Spec.parameter].
  rewrite H1, H2, H3. reflexivity.
Qed.

Lemma find_row_illegal (name : string) (ps : list Z) (param : Z) :
  Spec.legal_params name = Some ps ->
  Py.contains ps param = false ->
  Lookup.find_row name param = None.
Proof.
  intros Hn Hp.
  destruct (legal_params_inv name ps Hn) as [[-> ->] | [[-> ->] | [-> ->]]];
    unfold Py.contains, existsb in Hp;
    repeat (apply orb_false_iff in Hp; destruct Hp as [? Hp]);
    unfold Lookup.find_row, Spec.table, find, Lookup.matches;
    cbn [Spec.family Spec.parameter];
    repeat match goal with
           | E : (param =? _) = false |- _ => rewrite E; clear E
           end;
    reflexivity.
Qed.

Lemma lookup_refines (name : string) (param : Z) :
  get_wavelet_filter name param = Lookup.outcome name param.
Proof.
  destruct (Spec.legal_params name) as [ps |] eqn:Hn.
  - destruct (Py.contains ps param) eqn:Hp.
    + apply contains_In in Hp.
      destruct (legal_params_inv name ps Hn) as [[-> ->] | [[-> ->] | [-> ->]]];
        simpl in Hp;
        repeat (destruct Hp as [<- | Hp]; [vm_compute; reflexivity |]);
        contradiction.
    + rewrite (illegal_param_raises name ps param Hn Hp).
      unfold Lookup.outcome.
      rewrite (find_row_illegal name ps param Hn Hp), Hn. reflexivity.
  - pose proof (proj1 (legal_params_none name) Hn) as Hout.
    rewrite (unknown_family_unbound name param Hout).
    unfold Lookup.outcome.
    rewrite (find_row_unknown name param Hout), Hn. reflexivity.
Qed.

(** Whatever is returned is a row of the table, found under the arguments
    of the call. *)
Lemma returned_row (name : string) (param : Z) (a : Np.ndarray) :
  get_wavelet_filter name param = Ok a ->
  exists r : Spec.row,
    In r Spec.table /\ Spec.family r = name /\ Spec.parameter r = param
    /\ a = Np.FloatArray (0%float :: Spec.taps r).
Proof.
  rewrite lookup_refines. unfold Lookup.outcome.
  destruct (Lookup.find_row name param) as [r |] eqn:E.
  - intros [= <-]. apply find_some in E. destruct E as [Hin Hm].
    unfold Lookup.matches in Hm. apply andb_true_iff in Hm.
    destruct Hm as [Hf Hp].
    apply String.eqb_eq in Hf. apply Z.eqb_eq in Hp.
    exists r. auto.
  - destruct (Spec.legal_params name); discriminate.
Qed.

(** Two float lists with different bits are different lists. *)
Ltac differ H :=
  exfalso; apply (f_equal (map Prim2SF)) in H; vm_compute in H; discriminate H.

Lemma taps_injective (r1 r2 : Spec.row) :
  In r1 Spec.table -> In r2 Spec.table ->
  Spec.taps r1 = Spec.taps r2 -> r1 = r2.
Proof.
  unfold Spec.table. simpl In. intros H1 H2 E.
  repeat (destruct H1 as [<- | H1]; [| try contradiction]);
    repeat (destruct H2 as [<- | H2]; [| try contradiction]);
    first [ reflexivity | cbn [Spec.taps] in E; differ E ].
Qed.

Lemma dot_nil_r (l : list Q) : Exact.dot l [] = 0%Q.
Proof. destruct l; reflexivity. Qed.

Lemma double_shift_far (m : nat) (l : list Q) :
  (List.length l <= 2 * m)%nat -> Exact.double_shift m l = 0%Q.
Proof.
  intros H. unfold Exact.double_shift.
  rewrite skipn_all2 by exact H. apply dot_nil_r.
Qed.

(** ** Further properties of the registry *)

(** X1. The chain of [if] statements computes a table lookup: for every
    name and parameter the call ends exactly as the search of the seven
    rows does, with the [TypeError] of the family when the family is known
    and no row matches, and [UnboundLocalError] when the family is not
    known. *)
Theorem get_wavelet_filter_is_lookup (name : string) (param : Z) :
  get_wavelet_filter name param = Lookup.outcome name param.
Proof. apply lookup_refines. Qed.

(** X2. A call ends with [UnboundLocalError] on [f] exactly when the name
    is none of the three family literals, whatever the parameter (the empty
    string included). *)
Theorem unbound_iff_unknown_family (name : string) (param : Z) :
  get_wavelet_filter name param = Raise (UnboundLocalError "f")
  <-> ~ In name Spec.families.
Proof.
  split.
  - intros H Hin.
    destruct (Spec.legal_params name) as [ps |] eqn:Hn.
    + destruct (Py.contains ps param) eqn:Hp.
      * apply contains_In in Hp.
        destruct (legal_param_returns name ps param Hn Hp) as [taps E].
        congruence.
      * rewrite (illegal_param_raises name ps param Hn Hp) in H.
        discriminate H.
    + apply legal_params_none in Hn. contradiction.
  - apply unknown_family_unbound.
Qed.

(** X3. Every array the function returns is a [float64] array of odd
    length between 5 and 21 with exactly one leading zero: element 0 is
    [0.0] and element 1 is a non-zero tap. *)
Theorem returned_array_shape (name : string) (param : Z) (a : Np.ndarray) :
  get_wavelet_filter name param = Ok a ->
  (exists l : list float, a = Np.FloatArray l)
  /\ Nat.odd (Np.len a) = true
  /\ (5 <= Np.len a <= 21)%nat
  /\ Np.item a 0 = Some (Py.Float 0%float)
  /\ exists x : float,
      Np.item a 1 = Some (Py.Float x) /\ PrimFloat.eqb x 0%float = false.
Proof.
  intros H.
  destruct (returned_row name param a H) as (r & Hin & _ & _ & ->).
  unfold Spec.table in Hin. simpl In in Hin.
  repeat (destruct Hin as [<- | Hin];
          [ split; [eexists; reflexivity |];
            split; [reflexivity |];
            split; [simpl; lia |];
            split; [reflexivity |];
            eexists; split; reflexivity
          | ]);
    contradiction.
Qed.

Lemma returned_array_shape_witness :
  exists a : Np.ndarray,
    get_wavelet_filter "Daubechies" 20 = Ok a
    /\ (exists l : list float, a = Np.FloatArray l)
    /\ Nat.odd (Np.len a) = true
    /\ (5 <= Np.len a <= 21)%nat
    /\ Np.item a 0 = Some (Py.Float 0%float)
    /\ exists x : float,
        Np.item a 1 = Some (Py.Float x) /\ PrimFloat.eqb x 0%float = false.
Proof.
  eexists. split; [vm_compute; reflexivity |].
  exact (returned_array_shape "Daubechies" 20 _ eq_refl).
Defined.

(** X4. The supported pair can be read back from the result: two calls
    that return the same array were made with the same family and the same
    parameter. *)
Theorem supported_pair_recoverable
        (name1 name2 : string) (param1 param2 : Z) (a : Np.ndarray) :
  get_wavelet_filter name1 param1 = Ok a ->
  get_wavelet_filter name2 param2 = Ok a ->
  name1 = name2 /\ param1 = param2.
Proof.
  intros H1 H2.
  destruct (returned_row name1 param1 a H1) as (r1 & Hin1 & <- & <- & E1).
  destruct (returned_row name2 param2 a H2) as (r2 & Hin2 & <- & <- & E2).
  rewrite E1 in E2. injection E2 as E.
  rewrite (taps_injective r1 r2 Hin1 Hin2 E). split; reflexivity.
Qed.

Lemma supported_pair_recoverable_witness :
  exists a : Np.ndarray,
    get_wavelet_filter "Symmlet" 4 = Ok a
    /\ get_wavelet_filter "Symmlet" 4 = Ok a
    /\ "Symmlet" = "Symmlet" /\ 4 = 4.
Proof.
  eexists. split; [vm_compute; reflexivity |]. split; [reflexivity |].
  exact (supported_pair_recoverable "Symmlet" "Symmlet" 4 4 _ eq_refl eq_refl).
Defined.

(** X5. A [TypeError] has one of three messages, fixed by the family and
    not by the rejected parameter; the tuples print as Python prints them,
    with the trailing comma of a one-element tuple. *)
Theorem type_error_messages (name : string) (param : Z) (msg : string) :
  get_wavelet_filter name param = Raise (TypeError msg) ->
  (name = "Daubechies"
   /\ msg = "Supported params for Daubechies: (4, 6, 8, 10, 20)")
  \/ (name = "Coiflet" /\ msg = "Supported params for Coiflet: (2,)")
  \/ (name = "Symmlet" /\ msg = "Supported params for Symmlet: (4,)").
Proof.
  intros H.
  destruct (Spec.legal_params name) as [ps |] eqn:Hn.
  - destruct (Py.contains ps param) eqn:Hp.
    + apply contains_In in Hp.
      destruct (legal_param_returns name ps param Hn Hp) as [taps E].
      congruence.
    + rewrite (illegal_param_raises name ps param Hn Hp) in H.
      injection H as <-.
      destruct (legal_params_inv name ps Hn) as [[-> ->] | [[-> ->] | [-> ->]]];
        [left | right; left | right; right]; split; reflexivity.
  - apply legal_params_none in Hn.
    rewrite (unknown_family_unbound name param Hn) in H. discriminate H.
Qed.

Lemma type_error_messages_witness :
  get_wavelet_filter "Coiflet" (-2)
  = Raise (TypeError "Supported params for Coiflet: (2,)")
  /\ (("Coiflet" = "Daubechies"
       /\ "Supported params for Coiflet: (2,)"
          = "Supported params for Daubechies: (4, 6, 8, 10, 20)")
      \/ ("Coiflet" = "Coiflet"
          /\ "Supported params for Coiflet: (2,)"
             = "Supported params for Coiflet: (2,)")
      \/ ("Coiflet" = "Symmlet"
          /\ "Supported params for Coiflet: (2,)"
             = "Supported params for Symmlet: (4,)")).
Proof.
  split; [reflexivity |].
  exact (type_error_messages "Coiflet" (-2)
           "Supported params for Coiflet: (2,)" eq_refl).
Defined.

(** X6. The coefficients are returned as written, without normalisation:
    the sum of their squares is 1 for the Daubechies and Coiflet filters and
    2 for the Symmlet filter, within 1e-11, on the exact values of the
    floats. *)
Theorem returned_energy (name : string) (param : Z) (a : Np.ndarray) :
  get_wavelet_filter name param = Ok a ->
  Exact.all_finite a = true
  /\ Exact.within Exact.eps (Exact.energy (Exact.values a))
       (if (name =? "Symmlet")%string then 2 else 1)%Q = true.
Proof.
  intros H.
  destruct (returned_row name param a H) as (r & Hin & <- & _ & ->).
  unfold Spec.table in Hin. simpl In in Hin.
  repeat (destruct Hin as [<- | Hin];
          [split; vm_compute; reflexivity |]);
    contradiction.
Qed.

Lemma returned_energy_witness :
  exists a : Np.ndarray,
    get_wavelet_filter "Symmlet" 4 = Ok a
    /\ Exact.all_finite a = true
    /\ Exact.within Exact.eps (Exact.energy (Exact.values a)) 2%Q = true.
Proof.
  eexists. split; [vm_compute; reflexivity |].
  exact (returned_energy "Symmlet" 4 _ eq_refl).
Defined.

(** X7. Every returned filter is orthogonal to its own shifts by an even
    number of places: the correlation at lag [2 * m] is 0 within 1e-11 for
    every [m >= 1], the leading zero included. *)
Theorem returned_double_shift_orthogonal
        (name : string) (param : Z) (a : Np.ndarray) (m : nat) :
  get_wavelet_filter name param = Ok a ->
  (1 <= m)%nat ->
  Exact.within Exact.eps (Exact.double_shift m (Exact.values a)) 0%Q = true.
Proof.
  intros H Hm.
  destruct (returned_row name param a H) as (r & Hin & _ & _ & ->).
  destruct (Nat.le_gt_cases 11 m) as [Hfar | Hnear].
  - rewrite double_shift_far; [reflexivity |].
    unfold Exact.values. rewrite length_map.
    pose proof table_tap_counts as Hc.
    rewrite Forall_forall in Hc. specialize (Hc r Hin).
    simpl List.length. rewrite <- Hc.
    unfold Spec.table in Hin. simpl In in Hin.
    repeat (destruct Hin as [<- | Hin]; [simpl; lia |]); contradiction.
  - unfold Spec.table in Hin. simpl In in Hin.
    repeat (destruct Hin as [<- | Hin];
            [ do 11 (destruct m as [| m];
                     [first [lia | vm_compute; reflexivity] |]); lia
            | ]);
      contradiction.
Qed.

Lemma returned_double_shift_orthogonal_witness :
  exists a : Np.ndarray,
    get_wavelet_filter "Daubechies" 8 = Ok a
    /\ (1 <= 2)%nat
    /\ Exact.within Exact.eps (Exact.double_shift 2 (Exact.values a)) 0%Q
       = true.
Proof.
  eexists. split; [vm_compute; reflexivity |]. split; [lia |].
  exact (returned_double_shift_orthogonal "Daubechies" 8 _ 2 eq_refl
           (le_S 1 1 (le_n 1))).
Defined.

(** X8. Every returned filter is a low-pass filter with a zero at the
    highest frequency: the alternating sum of its coefficients is 0 within
    1e-11, and the square of their sum is 2 (4 for the Symmlet filter)
    within 1e-10. *)
Theorem returned_low_pass (name : string) (param : Z) (a : Np.ndarray) :
  get_wavelet_filter name param = Ok a ->
  Exact.within Exact.eps (Exact.alternating (Exact.values a)) 0%Q = true
  /\ Exact.within (10 * Exact.eps)%Q
       (Exact.sum (Exact.values a) * Exact.sum (Exact.values a))%Q
       (if (name =? "Symmlet")%string then 4 else 2)%Q = true.
Proof.
  intros H.
  destruct (returned_row name param a H) as (r & Hin & <- & _ & ->).
  unfold Spec.table in Hin. simpl In in Hin.
  repeat (destruct Hin as [<- | Hin];
          [split; vm_compute; reflexivity |]);
    contradiction.
Qed.

Lemma returned_low_pass_witness :
  exists a : Np.ndarray,
    get_wavelet_filter "Coiflet" 2 = Ok a
    /\ Exact.within Exact.eps (Exact.alternating (Exact.values a)) 0%Q = true
    /\ Exact.within (10 * Exact.eps)%Q
         (Exact.sum (Exact.values a) * Exact.sum (Exact.values a))%Q
         2%Q = true.
Proof.
  eexists. split; [vm_compute; reflexivity |].
  exact (returned_low_pass "Coiflet" 2 _ eq_refl).
Defined.

(** X9. A call changes no object that existed before it, whether it
    returns or raises; and when it returns, the reference is to an array
    that did not exist before the call, so no two results share an
    array. *)
Theorem call_leaves_heap_intact
        (h h' : Heap.heap) (name : string) (param : Z)
        (r : result Heap.addr) :
  Stateful.get_wavelet_filter name param h = Some (r, h') ->
  (forall l0 o, Heap.lookup h l0 = Some o -> Heap.lookup h' l0 = Some o)
  /\ (forall l, r = Ok l ->
                Heap.lookup h l = None
                /\ exists a, Heap.lookup h' l = Some (Heap.Array a)
                             /\ get_wavelet_filter name param = Ok a).
Proof.
  intros H.
  pose proof (run_get_wavelet_filter h name param) as R.
  destruct (get_wavelet_filter name param) as [a | e].
  - destruct R as (l' & h'' & E & X & L & N).
    rewrite E in H. injection H as <- <-. split.
    + intros l0 o. apply lookup_extends, X.
    + intros l [= <-]. split; [exact N |]. exists a. auto.
  - destruct R as (h'' & E & X).
    rewrite E in H. injection H as <- <-. split.
    + intros l0 o. apply lookup_extends, X.
    + intros l Hl. discriminate Hl.
Qed.

Lemma call_leaves_heap_intact_witness :
  let h := [Heap.Array (Np.IntArray [7]); Heap.List [Py.Float 1%float]] in
  exists (r : result Heap.addr) (h' : Heap.heap),
    Stateful.get_wavelet_filter "Coiflet" 2 h = Some (r, h')
    /\ (forall l0 o, Heap.lookup h l0 = Some o -> Heap.lookup h' l0 = Some o)
    /\ (forall l, r = Ok l ->
                  Heap.lookup h l = None
                  /\ exists a, Heap.lookup h' l = Some (Heap.Array a)
                               /\ get_wavelet_filter "Coiflet" 2 = Ok a).
Proof.
  intros h. eexists. eexists.
  split; [vm_compute; reflexivity |].
  exact (call_leaves_heap_intact h _ "Coiflet" 2 _ eq_refl).
Defined.

